(** * IoT predictive maintenance service: a shallow embedding of [main.py]

    The handlers of the service ([add_data], [simulate_data], [train],
    [predict], [home], [favicon]) and the two helpers they call
    ([train_model], [load_model]) are written as functions over an explicit
    world: the rows of the [iot_machine_data] table, the files on disk, the
    state of the [random] module and the faults of the storage underneath.
    Python floats are IEEE binary64 values ([spec_float]); a [Float] column
    holds a number or NULL, and the table keeps a number as SQLite does (no
    NaN, no negative zero); the scikit-learn estimator and [pickle] are an
    interface the handlers are parametric in. *)

From Stdlib Require Import ZArith SpecFloat.
From stdpp Require Import base option list strings pretty gmap.

Local Open Scope Z_scope.

(** ** Python floats *)

Module Float.

Definition prec : Z := 53.
Definition emax : Z := 1024.

Definition float : Type := spec_float.

(** [float(n)] for a Python int [n]. *)
Definition of_int (n : Z) : float := binary_normalize prec emax n 0 false.

Definition add : float -> float -> float := SFadd prec emax.
Definition sub : float -> float -> float := SFsub prec emax.
Definition mul : float -> float -> float := SFmul prec emax.
Definition div : float -> float -> float := SFdiv prec emax.

(** [x < y] and [x > y]; both are [False] as soon as one side is NaN. *)
Definition lt (x y : float) : bool := SFltb x y.
Definition gt (x y : float) : bool := SFltb y x.

(** The literals of [simulate_data].  The integer ones are exact, the
    decimal ones are the binary64 values nearest to them. *)
Definition f60   : float := S754_finite false 8444249301319680 (-47).
Definition f100  : float := S754_finite false 7036874417766400 (-46).
Definition f25   : float := S754_finite false 7036874417766400 (-48).
Definition f40   : float := S754_finite false 5629499534213120 (-47).
Definition f90   : float := S754_finite false 6333186975989760 (-46).
Definition f28   : float := S754_finite false 7881299347898368 (-48).
Definition f0_01 : float := S754_finite false 5764607523034235 (-59).
Definition f0_1  : float := S754_finite false 7205759403792794 (-56).
Definition f0_08 : float := S754_finite false 5764607523034235 (-56).

Definition valid (x : float) : bool := valid_binary prec emax x.

End Float.

Abbreviation float := Float.float.

(** ** The table [iot_machine_data] *)

(** The value of a [Float] column: a number, or [None] (NULL in the
    table, a missing value in a data frame). *)
Definition cell : Type := option float.

(** One row; [row_id] is the column [id] (the name [id] is the identity
    function of the libraries loaded here). *)
Record IoTMachineData : Type := mkIoTMachineData {
  row_id      : Z;
  machine_id  : string;
  temperature : cell;
  vibration   : cell;
  pressure    : cell;
  status      : string
}.

(** [IoTMachineData(machine_id=..., ...)]: an object whose primary key is
    still unset; the flush of the session fills it in. *)
Definition pending : Type := Z -> IoTMachineData.

Definition new_entry (m : string) (t v p : float) (s : string) : pending :=
  fun k => mkIoTMachineData k m (Some t) (Some v) (Some p) s.

(** What the table keeps of a number bound to a [Float] column: a NaN is
    stored as NULL, and a zero is stored as the integer 0, so that -0.0
    reads back as 0.0; every other number is kept bit for bit. *)
Definition sqlite_real (c : cell) : cell :=
  match c with
  | Some S754_nan => None
  | Some (S754_zero _) => Some (S754_zero false)
  | _ => c
  end.
Arguments sqlite_real : simpl never.

(** The row as the table holds it. *)
Definition stored (r : IoTMachineData) : IoTMachineData :=
  mkIoTMachineData (row_id r) (machine_id r)
    (sqlite_real (temperature r)) (sqlite_real (vibration r))
    (sqlite_real (pressure r)) (status r).

(** The table is a B-tree keyed by [id]: rows are kept in key order and a
    full scan returns them in that order. *)
Definition table : Type := list IoTMachineData.

Definition max_rowid (t : table) : option Z :=
  foldr (fun r acc => Some (match acc with
                            | None => row_id r
                            | Some m => Z.max (row_id r) m
                            end)) None t.

(** An [INTEGER PRIMARY KEY] left unset on insert: one more than the
    largest key in use, and 1 in an empty table. *)
Definition next_rowid (t : table) : Z :=
  match max_rowid t with
  | None => 1
  | Some m => m + 1
  end.

Fixpoint btree_insert (r : IoTMachineData) (t : table) : table :=
  match t with
  | [] => [r]
  | r' :: t' =>
      if row_id r <? row_id r' then r :: t else r' :: btree_insert r t'
  end.

Definition insert_row (e : pending) (t : table) : table :=
  btree_insert (stored (e (next_rowid t))) t.

(** [db.commit()]: the pending objects are inserted in the order of their
    [db.add]. *)
Definition flush (session : list pending) (t : table) : table :=
  foldl (fun acc e => insert_row e acc) t session.

(** [SELECT * FROM iot_machine_data]. *)
Definition select_all (t : table) : table := t.

(** ** The world the handlers run in *)

Definition DB_FILE : string := "iot_maintenance.db".
Definition MODEL_FILE : string := "iot_maintenance_model.pkl".

(** The database file is present in the world through what it holds, the
    table [db]; [files] are the other files of the working directory, and
    says nothing of [DB_FILE] or of the journals the engine keeps beside
    it. *)
Record World : Type := mkWorld {
  db          : table;
  files       : gmap string (list Byte.byte);
  (** the values [random.random()] is going to return, and how many of
      them have been drawn *)
  rand_source : nat -> float;
  rand_drawn  : nat;
  (** [Some k]: the storage takes [k] more bytes and then fails *)
  write_fault : option nat
}.

Definition with_db (t : table) (w : World) : World :=
  mkWorld t (files w) (rand_source w) (rand_drawn w) (write_fault w).

Definition with_files (fs : gmap string (list Byte.byte)) (w : World) : World :=
  mkWorld (db w) fs (rand_source w) (rand_drawn w) (write_fault w).

Definition with_fault (k : option nat) (w : World) : World :=
  mkWorld (db w) (files w) (rand_source w) (rand_drawn w) k.

(** The service started in a directory with neither database nor model:
    [create_all] has made the empty table. *)
Definition fresh_world (src : nat -> float) : World :=
  mkWorld [] ∅ src 0%nat None.

(** ** Exceptions and the monad of the handlers *)

Inductive exn : Type :=
| OSError
| ValueError (msg : string)
| UnpicklingError
| IndexError
| AttributeError.

Inductive result (A : Type) : Type :=
| Ok (a : A)
| Raise (e : exn).
Arguments Ok {A} a.
Arguments Raise {A} e.

Definition M (A : Type) : Type := World -> result A * World.

Definition ret {A} (a : A) : M A := fun w => (Ok a, w).

Definition raise {A} (e : exn) : M A := fun w => (Raise e, w).

Definition bind {A B} (m : M A) (k : A -> M B) : M B :=
  fun w => match m w with
           | (Ok a, w') => k a w'
           | (Raise e, w') => (Raise e, w')
           end.

Definition lift {A} (r : result A) : M A := fun w => (r, w).

Definition get_world : M World := fun w => (Ok w, w).

Definition modify (f : World -> World) : M unit := fun w => (Ok tt, f w).

#[export] Instance M_ret : MRet M := @ret.
#[export] Instance M_bind : MBind M := fun A B k m => bind m k.

(** A JSON object with string values, the return value of a handler. *)
Definition response : Type := list (string * string).

(** ** The storage session *)

(** [db.commit()] after the [db.add]s collected in [session]. *)
Definition commit (session : list pending) : M unit :=
  modify (fun w => with_db (flush session (db w)) w).

(** [pd.read_sql("SELECT * FROM iot_machine_data", db.bind)]: a data frame,
    one row per table row, in the order of the scan. *)
Definition read_sql : M (list IoTMachineData) :=
  w ← get_world; mret (select_all (db w)).

(** ** Files *)

(** [os.path.exists]. *)
Definition path_exists (p : string) : M bool :=
  w ← get_world; mret (bool_decide (is_Some (files w !! p))).

(** [open(p, "wb")]: the file is created, or cut to length zero. *)
Definition open_wb (p : string) : M unit :=
  modify (fun w => with_files (<[p := []]> (files w)) w).

(** [f.write(bs)] on the file opened at [p].  Under a fault [Some k] only
    the first [k] bytes reach the file before [OSError] is raised. *)
Definition file_write (p : string) (bs : list Byte.byte) : M unit :=
  fun w =>
    let old := default [] (files w !! p) in
    match write_fault w with
    | None => (Ok tt, with_files (<[p := old ++ bs]> (files w)) w)
    | Some k =>
        if decide (length bs ≤ k)%nat
        then (Ok tt, with_fault (Some (k - length bs)%nat)
                       (with_files (<[p := old ++ bs]> (files w)) w))
        else (Raise OSError, with_fault (Some 0%nat)
                       (with_files (<[p := old ++ take k bs]> (files w)) w))
    end.

(** [open(p, "rb")] followed by reading the file to its end. *)
Definition file_read (p : string) : M (list Byte.byte) :=
  w ← get_world;
  match files w !! p with
  | Some bs => mret bs
  | None => raise OSError
  end.

(** ** The [random] module *)

Definition random : M float :=
  fun w => (Ok (rand_source w (rand_drawn w)),
            mkWorld (db w) (files w) (rand_source w) (S (rand_drawn w))
                    (write_fault w)).

(** [random.uniform(a, b)] is [a + (b - a) * random()]. *)
Definition uniform (a b : float) : M float :=
  u ← random; mret (Float.add a (Float.mul (Float.sub b a) u)).

(** ** The estimator and its serialisation *)

Definition features : Type := float * float * float.

(** A row of the training frame [data[["temperature", "vibration",
    "pressure"]]]: the three cells as they are read from the table. *)
Definition sample : Type := cell * cell * cell.

(** What [pickle.load] can return, as far as [predict] tells objects
    apart: an object whose truth value is false ([None], [0], an empty
    container), a fitted estimator, or any other object, which is true and
    has no [predict]. *)
Inductive unpickled (A : Type) : Type :=
| Falsy
| Fitted (m : A)
| Foreign.
Arguments Falsy {A}.
Arguments Fitted {A} m.
Arguments Foreign {A}.

(** What the service uses of [LogisticRegression] and of [pickle]. *)
Class Estimator : Type := {
  model : Type;
  (** [LogisticRegression().fit(X, y)] *)
  fit : list sample -> list Z -> result model;
  (** [model.predict(X)] *)
  model_predict : model -> list features -> list Z;
  (** the bytes [pickle.dump] writes, and [pickle.load] of a file content *)
  pickle_dumps : model -> list Byte.byte;
  pickle_loads : list Byte.byte -> result (unpickled model)
}.

(** ** Handlers *)

Section Handlers.

Context `{Estimator}.

Definition pickle_dump (m : model) (p : string) : M unit :=
  file_write p (pickle_dumps m).

Definition pickle_load (p : string) : M (unpickled model) :=
  bs ← file_read p; lift (pickle_loads bs).

(** [lambda x: 1 if x == "FAIL" else 0] *)
Definition label (x : string) : Z :=
  if decide (x = "FAIL") then 1 else 0.

Definition train_model : M (option model) :=
  data ← read_sql;
  match data with
  | [] => mret None
  | _ :: _ =>
      let X := (fun r => (temperature r, vibration r, pressure r)) <$> data in
      let y := (fun r => label (status r)) <$> data in
      model ← lift (fit X y);
      open_wb MODEL_FILE;;
      pickle_dump model MODEL_FILE;;
      mret (Some model)
  end.

(** The object read from the model file, or [None], which is one of the
    false objects. *)
Definition load_model : M (unpickled model) :=
  present ← path_exists MODEL_FILE;
  if (present : bool)
  then pickle_load MODEL_FILE
  else mret Falsy.

Definition add_data (machine_id : string) (temperature vibration pressure : float)
    (status : string) : M response :=
  let entry := new_entry machine_id temperature vibration pressure status in
  commit [entry];;
  mret [("message", "Data added successfully")].

(** The labelling rule of the simulator. *)
Definition simulate_status (temperature vibration pressure : float) : string :=
  if Float.gt temperature Float.f90
     || Float.gt vibration Float.f0_08
     || Float.lt pressure Float.f28
  then "FAIL" else "OK".

(** The body of [for _ in range(count)], [n] iterations to go; [session]
    holds the objects added so far. *)
Fixpoint simulate_loop (n : nat) (machine_id : string) (session : list pending)
    : M (list pending) :=
  match n with
  | O => mret session
  | S n' =>
      temperature ← uniform Float.f60 Float.f100;
      vibration ← uniform Float.f0_01 Float.f0_1;
      pressure ← uniform Float.f25 Float.f40;
      let status := simulate_status temperature vibration pressure in
      let entry := new_entry machine_id temperature vibration pressure status in
      simulate_loop n' machine_id (session ++ [entry])
  end.

Definition simulate_data (machine_id : string) (count : Z) : M response :=
  session ← simulate_loop (Z.to_nat count) machine_id [];
  commit session;;
  mret [("message",
         pretty count +:+ " simulated IoT records added for machine " +:+ machine_id)].

Definition train : M response :=
  model ← train_model;
  match model with
  | Some _ => mret [("message", "Model trained successfully")]
  | None => mret [("message", "No data available to train")]
  end.

Definition predict (temperature vibration pressure : float) : M response :=
  model ← load_model;
  match model with
  | Falsy => mret [("error", "Model not trained yet")]
  | Foreign => raise AttributeError
  | Fitted m =>
      let X_new := [(temperature, vibration, pressure)] in
      prediction ← match model_predict m X_new with
                   | [] => raise IndexError
                   | c :: _ => mret c
                   end;
      let status := if decide (prediction = 1) then "FAIL" else "OK" in
      mret [("prediction", status)]
  end.

End Handlers.

(** ** A small estimator to run the handlers with

    It stands in for the library where a statement is evaluated on concrete
    data: it predicts the more frequent label of the training set and, as
    the library's solver does, refuses a training set with fewer than two
    classes. *)

Definition count_label (c : Z) (y : list Z) : nat :=
  length (filter (fun l => l = c) y).

Definition majority_fit (X : list sample) (y : list Z) : result Z :=
  if decide (count_label 1 y = 0%nat ∨ count_label 0 y = 0%nat)
  then Raise (ValueError "This solver needs samples of at least 2 classes in the data")
  else Ok (if decide (count_label 0 y < count_label 1 y)%nat then 1 else 0).

Definition majority_dumps (m : Z) : list Byte.byte :=
  [Byte.x80; if decide (m = 1) then Byte.x01 else Byte.x00].

Definition majority_loads (bs : list Byte.byte) : result (unpickled Z) :=
  match bs with
  | [Byte.x80; Byte.x01] => Ok (Fitted 1)
  | [Byte.x80; Byte.x00] => Ok (Fitted 0)
  | [Byte.x80; Byte.x4e] => Ok Falsy
  | _ => Raise UnpicklingError
  end.

Definition majority : Estimator := {|
  model := Z;
  fit := majority_fit;
  model_predict := fun m X => (fun _ => m) <$> X;
  pickle_dumps := majority_dumps;
  pickle_loads := majority_loads
|}.

(** A source of random numbers for the examples: 0.5, 0.95, 0.05 in turn
    ([n / 20] rounded to binary64). *)
Definition cycle3 (n : nat) : float :=
  match (n mod 3)%nat with
  | O => Float.div (Float.of_int 1) (Float.of_int 2)
  | 1%nat => Float.div (Float.of_int 19) (Float.of_int 20)
  | _ => Float.div (Float.of_int 1) (Float.of_int 20)
  end.

(** ** Vocabulary of the statements *)

(** An object that takes the key the table gives it. *)
Definition keyed (e : pending) : Prop := ∀ k, row_id (e k) = k.

(** A row as one iteration of [simulate_data] builds it for machine [m]. *)
Definition simulated (m : string) (r : IoTMachineData) : Prop :=
  ∃ k t v p, r = stored (new_entry m t v p (simulate_status t v p) k).

(** [c > x] and [c < x] for a cell read from the table; a NULL, like the
    NaN it came from, is on neither side of a number. *)
Definition cell_gt (c : cell) (x : float) : bool :=
  match c with
  | Some y => Float.gt y x
  | None => false
  end.

Definition cell_lt (c : cell) (x : float) : bool :=
  match c with
  | Some y => Float.lt y x
  | None => false
  end.

(** The threshold rule as the specification words it. *)
Definition over_threshold (r : IoTMachineData) : Prop :=
  cell_gt (temperature r) Float.f90 = true
  ∨ cell_gt (vibration r) Float.f0_08 = true
  ∨ cell_lt (pressure r) Float.f28 = true.

(** The world a handler leaves behind, and what it returns. *)
Definition world_after {A} (m : M A) (w : World) : World := snd (m w).
Definition outcome {A} (m : M A) (w : World) : result A := fst (m w).

(** The two values the column [status] is documented to hold. *)
Definition valid_status (s : string) : Prop := s = "OK" ∨ s = "FAIL".

Definition status_invariant (w : World) : Prop :=
  Forall (fun r => valid_status (status r)) (db w).

#[export] Instance valid_status_dec s : Decision (valid_status s).
Proof. unfold valid_status. apply _. Defined.

#[export] Instance status_invariant_dec w : Decision (status_invariant w).
Proof. unfold status_invariant. apply _. Defined.

(** The parts of [train_model], named: the matrix [X], the vector [y], and
    the two statements that write the fitted model out. *)
Definition feature_matrix (data : list IoTMachineData) : list sample :=
  (fun r => (temperature r, vibration r, pressure r)) <$> data.

Definition label_vector (data : list IoTMachineData) : list Z :=
  (fun r => label (status r)) <$> data.

Definition persist `{Estimator} (m : model) : M (option model) :=
  open_wb MODEL_FILE;; pickle_dump m MODEL_FILE;; mret (Some m).

Definition train_model_on `{Estimator} (data : list IoTMachineData)
    : M (option model) :=
  match data with
  | [] => mret None
  | _ :: _ => m ← lift (fit (feature_matrix data) (label_vector data)); persist m
  end.

(** Worlds for the examples, all run with the estimator [majority]:
    two OK readings and one FAIL reading are stored and a model is trained;
    two more FAIL readings arrive; the storage is about to fail after one
    more byte. *)
Definition first_training : World :=
  world_after (@train majority)
    (world_after (add_data "m1" Float.f100 Float.f0_01 Float.f40 "FAIL")
       (world_after (add_data "m1" Float.f60 Float.f0_01 Float.f40 "OK")
          (world_after (add_data "m1" Float.f60 Float.f0_01 Float.f40 "OK")
             (fresh_world cycle3)))).

Definition before_retraining : World :=
  with_fault (Some 1%nat)
    (world_after (add_data "m2" Float.f100 Float.f0_1 Float.f25 "FAIL")
       (world_after (add_data "m2" Float.f100 Float.f0_1 Float.f25 "FAIL")
          first_training)).

(** ** The pages and the dispatch of requests *)

(** What a route returns: a JSON object, an HTML body with its status
    code, or a file served from disk. *)
Inductive reply : Type :=
| JSONResponse (content : response)
| HTMLResponse (content : string) (status_code : Z)
| FileResponse (path : string).

Definition newline : string := String (Ascii.ascii_of_nat 10) "".

Definition HOME_PAGE : string :=
  newline
  +:+ "    <h1>Simulate IoT Data Driven - Local Predictive Maintenance System - ML</h1>" +:+ newline
  +:+ "    <p>Available endpoints:</p>" +:+ newline
  +:+ "    <ul>" +:+ newline
  +:+ "        <li>/simulate_data?machine_id=1&count=10</li>" +:+ newline
  +:+ "        <li>/add_data?machine_id=1&temperature=75&vibration=0.02&pressure=30&status=OK</li>" +:+ newline
  +:+ "        <li>/train_model</li>" +:+ newline
  +:+ "        <li>/predict?temperature=80&vibration=0.05&pressure=28</li>" +:+ newline
  +:+ "    </ul>" +:+ newline
  +:+ "    ".

Definition home : M reply := mret (HTMLResponse HOME_PAGE 200).

Definition favicon : M reply :=
  present ← path_exists "favicon.ico";
  if (present : bool)
  then mret (FileResponse "favicon.ico")
  else mret (HTMLResponse "" 200).

(** The routes of [app], one constructor per [@app.get]. *)
Inductive request : Type :=
| GetHome
| GetFavicon
| GetAddData (machine_id : string) (temperature vibration pressure : float)
    (status : string)
| GetSimulateData (machine_id : string) (count : Z)
| GetTrainModel
| GetPredict (temperature vibration pressure : float).

Definition handle `{Estimator} (q : request) : M reply :=
  match q with
  | GetHome => home
  | GetFavicon => favicon
  | GetAddData m t v p s => r ← add_data m t v p s; mret (JSONResponse r)
  | GetSimulateData m count => r ← simulate_data m count; mret (JSONResponse r)
  | GetTrainModel => r ← train; mret (JSONResponse r)
  | GetPredict t v p => r ← predict t v p; mret (JSONResponse r)
  end.

(** Requests served one after the other; a handler that raises answers
    its own request with the error and the next request runs in the world
    it left. *)
Fixpoint serve `{Estimator} (qs : list request) (w : World)
    : list (result reply) * World :=
  match qs with
  | [] => ([], w)
  | q :: qs' =>
      let '(r, w') := handle q w in
      let '(rs, w'') := serve qs' w' in
      (r :: rs, w'')
  end.

(** ** Vocabulary of the further statements *)

(** The [i]-th object of a [simulate_data] loop that starts when [d]
    random numbers have been drawn from [src]. *)
Definition simulated_entry (m : string) (src : nat -> float) (d i : nat) : pending :=
  let draw a b n := Float.add a (Float.mul (Float.sub b a) (src n)) in
  let t := draw Float.f60 Float.f100 (d + 3 * i)%nat in
  let v := draw Float.f0_01 Float.f0_1 (d + 3 * i + 1)%nat in
  let p := draw Float.f25 Float.f40 (d + 3 * i + 2)%nat in
  new_entry m t v p (simulate_status t v p).

(** Ids grow strictly along the rows of a table. *)
Definition ids_increasing (t : table) : Prop :=
  ∀ i j ri rj, t !! i = Some ri → t !! j = Some rj →
    (i < j)%nat → row_id ri < row_id rj.

(** The threshold rule as a boolean. *)
Definition over_thresholdb (r : IoTMachineData) : bool :=
  cell_gt (temperature r) Float.f90
  || cell_gt (vibration r) Float.f0_08
  || cell_lt (pressure r) Float.f28.

(** The rows a request adds and the random numbers it draws. *)
Definition rows_added (q : request) : nat :=
  match q with
  | GetAddData _ _ _ _ _ => 1
  | GetSimulateData _ count => Z.to_nat count
  | _ => 0
  end.

Definition numbers_drawn (q : request) : nat :=
  match q with
  | GetSimulateData _ count => 3 * Z.to_nat count
  | _ => 0
  end.

(** The objects a request adds to its session, in the order of their
    [db.add], when [d] random numbers have been drawn from [src]. *)
Definition added (q : request) (src : nat -> float) (d : nat) : list pending :=
  match q with
  | GetAddData m t v p s => [new_entry m t v p s]
  | GetSimulateData m count => simulated_entry m src d <$> seq 0 (Z.to_nat count)
  | _ => []
  end.

(** The objects a sequence of requests adds, in the order of the requests. *)
Fixpoint inserted (qs : list request) (src : nat -> float) (d : nat)
    : list pending :=
  match qs with
  | [] => []
  | q :: qs' => added q src d ++ inserted qs' src (d + numbers_drawn q)
  end.

(** A number the table gives back as it was given. *)
Definition kept_as_given (x : float) : Prop :=
  match x with
  | S754_nan | S754_zero true => False
  | _ => True
  end.

(** A file of the database engine: the database file or a journal beside
    it. *)
Definition database_file (p : string) : Prop :=
  String.prefix DB_FILE p = true.

(** * Properties *)

(** ** The literals *)

Lemma literals_are_binary64 :
  Forall (fun x => Float.valid x = true)
    [Float.f60; Float.f100; Float.f25; Float.f40; Float.f90; Float.f28;
     Float.f0_01; Float.f0_1; Float.f0_08].
Proof. repeat constructor. Qed.

Lemma integer_literals :
  Float.of_int <$> [60; 100; 25; 40; 90; 28]
  = [Float.f60; Float.f100; Float.f25; Float.f40; Float.f90; Float.f28].
Proof. reflexivity. Qed.

Lemma decimal_literals :
  Float.div (Float.of_int 1) (Float.of_int 100) = Float.f0_01
  ∧ Float.div (Float.of_int 1) (Float.of_int 10) = Float.f0_1
  ∧ Float.div (Float.of_int 8) (Float.of_int 100) = Float.f0_08.
Proof. repeat split; vm_compute; reflexivity. Qed.

(** ** The monad *)

Lemma bind_ok {A B} (m : M A) (k : A -> M B) w a w' :
  m w = (Ok a, w') → (m ≫= k) w = k a w'.
Proof. intros E. unfold mbind, M_bind, bind. by rewrite E. Qed.

Lemma bind_raise {A B} (m : M A) (k : A -> M B) w e w' :
  m w = (Raise e, w') → (m ≫= k) w = (Raise e, w').
Proof. intros E. unfold mbind, M_bind, bind. by rewrite E. Qed.

(** ** Row ids *)

Lemma new_entry_keyed m t v p s : keyed (new_entry m t v p s).
Proof. intros k. reflexivity. Qed.

Lemma max_rowid_None (t : table) : max_rowid t = None ↔ t = [].
Proof. destruct t; simpl; split; congruence. Qed.

Lemma max_rowid_ge (t : table) m :
  max_rowid t = Some m → Forall (fun r => row_id r ≤ m) t.
Proof.
  revert m. induction t as [|r t IH]; intros m; simpl; [constructor|].
  destruct (max_rowid t) as [m'|] eqn:E; intros [= <-].
  - constructor; [lia|].
    eapply Forall_impl; [by apply IH|]. simpl. intros; lia.
  - apply max_rowid_None in E as ->. repeat constructor. lia.
Qed.

Lemma max_rowid_snoc (t : table) r :
  max_rowid (t ++ [r])
  = Some (match max_rowid t with
          | None => row_id r
          | Some m => Z.max m (row_id r)
          end).
Proof.
  induction t as [|r' t IH]; [reflexivity|].
  change ((r' :: t) ++ [r]) with (r' :: (t ++ [r])).
  simpl. rewrite IH. destruct (max_rowid t); f_equal; lia.
Qed.

Lemma btree_insert_last r (t : table) :
  Forall (fun r' => row_id r' ≤ row_id r) t → btree_insert r t = t ++ [r].
Proof.
  induction 1 as [|r' t Hr' _ IH]; [reflexivity|].
  simpl. destruct (Z.ltb_spec (row_id r) (row_id r')); [lia|].
  by rewrite IH.
Qed.

Lemma row_id_stored r : row_id (stored r) = row_id r.
Proof. reflexivity. Qed.

Lemma insert_row_snoc e (t : table) :
  keyed e → insert_row e t = t ++ [stored (e (next_rowid t))].
Proof.
  intros He. unfold insert_row. apply btree_insert_last.
  rewrite row_id_stored, He. unfold next_rowid.
  destruct (max_rowid t) as [m|] eqn:E.
  - eapply Forall_impl; [by apply max_rowid_ge|]. simpl. intros; lia.
  - apply max_rowid_None in E as ->. constructor.
Qed.

Lemma next_rowid_snoc e (t : table) :
  keyed e → next_rowid (t ++ [stored (e (next_rowid t))]) = next_rowid t + 1.
Proof.
  intros He. unfold next_rowid at 1. rewrite max_rowid_snoc, row_id_stored, He.
  unfold next_rowid. destruct (max_rowid t); lia.
Qed.

(** A commit appends its rows, numbered from the next free id on. *)
Lemma flush_spec (session : list pending) (t : table) :
  Forall keyed session →
  flush session t
  = t ++ imap (fun i e => stored (e (next_rowid t + Z.of_nat i))) session.
Proof.
  intros Hs. revert t. induction Hs as [|e s He _ IH]; intros t.
  - simpl. by rewrite app_nil_r.
  - change (flush (e :: s) t) with (flush s (insert_row e t)).
    rewrite IH, insert_row_snoc, next_rowid_snoc by done.
    simpl. rewrite <- app_assoc. simpl. rewrite Z.add_0_r.
    do 2 f_equal. apply imap_ext. intros i x _. simpl. do 2 f_equal. lia.
Qed.

(** ** What the table keeps of a number *)

Lemma cell_gt_stored x y : cell_gt (sqlite_real (Some x)) y = Float.gt x y.
Proof. by destruct x as [[]|[]| |[] ? ?], y as [[]|[]| |[] ? ?]. Qed.

Lemma cell_lt_stored x y : cell_lt (sqlite_real (Some x)) y = Float.lt x y.
Proof. by destruct x as [[]|[]| |[] ? ?], y as [[]|[]| |[] ? ?]. Qed.

Lemma sqlite_real_kept x : sqlite_real (Some x) = Some x ↔ kept_as_given x.
Proof. destruct x as [[]|[]| |[] ? ?]; cbv; split; done. Qed.

(** ** The simulator *)

Lemma simulate_loop_spec n m (session : list pending) w :
  ∃ new w',
    simulate_loop n m session w = (Ok (session ++ new), w')
    ∧ length new = n
    ∧ Forall (fun e => keyed e ∧ ∀ k, simulated m (stored (e k))) new
    ∧ db w' = db w ∧ files w' = files w ∧ write_fault w' = write_fault w.
Proof.
  revert session w. induction n as [|n IH]; intros session w.
  - exists [], w. rewrite app_nil_r. by repeat split.
  - set (w3 := mkWorld (db w) (files w) (rand_source w)
                 (S (S (S (rand_drawn w)))) (write_fault w)).
    set (t := Float.add Float.f60 (Float.mul (Float.sub Float.f100 Float.f60)
                 (rand_source w (rand_drawn w)))).
    set (v := Float.add Float.f0_01 (Float.mul (Float.sub Float.f0_1 Float.f0_01)
                 (rand_source w (S (rand_drawn w))))).
    set (p := Float.add Float.f25 (Float.mul (Float.sub Float.f40 Float.f25)
                 (rand_source w (S (S (rand_drawn w)))))).
    set (e := new_entry m t v p (simulate_status t v p)).
    destruct (IH (session ++ [e]) w3) as (new & w' & Hrun & Hlen & Hnew & Hw').
    exists (e :: new), w'. split; [|split; [|split]].
    + replace (session ++ e :: new) with ((session ++ [e]) ++ new)
        by (by rewrite <- app_assoc).
      rewrite <- Hrun. reflexivity.
    + simpl. by rewrite Hlen.
    + constructor; [|done]. split; [apply new_entry_keyed|].
      intros k. by exists k, t, v, p.
    + exact Hw'.
Qed.

Lemma simulate_data_spec m count w :
  ∃ new w',
    simulate_data m count w
    = (Ok [("message",
            pretty count +:+ " simulated IoT records added for machine " +:+ m)],
       w')
    ∧ db w' = db w ++ new
    ∧ length new = Z.to_nat count
    ∧ Forall (simulated m) new
    ∧ files w' = files w ∧ write_fault w' = write_fault w.
Proof.
  destruct (simulate_loop_spec (Z.to_nat count) m [] w)
    as (session & w1 & Hrun & Hlen & Hnew & Hdb & Hfiles & Hfault).
  simpl in Hrun.
  exists (imap (fun i e => stored (e (next_rowid (db w) + Z.of_nat i))) session),
    (with_db (flush session (db w1)) w1).
  split; [|split; [|split; [|split]]].
  - unfold simulate_data. erewrite bind_ok by exact Hrun. reflexivity.
  - simpl. rewrite Hdb. apply flush_spec.
    eapply Forall_impl; [exact Hnew|]. by intros e [He _].
  - by rewrite length_imap.
  - apply Forall_forall. intros r Hr.
    apply elem_of_lookup_imap in Hr as (i & e & -> & Hi).
    eapply Forall_lookup_1 in Hnew as [_ Hsim]; [|exact Hi]. apply Hsim.
  - simpl. by split.
Qed.

(** C1.  Every row [simulate_data] generates is labelled FAIL exactly when
    temperature > 90, or vibration > 0.08, or pressure < 28, and OK
    otherwise; a reading that sits on the three thresholds (90, 0.08, 28)
    is labelled OK. *)
Theorem simulate_data_status_rule m count w :
  (∃ new,
     db (world_after (simulate_data m count) w) = db w ++ new
     ∧ length new = Z.to_nat count
     ∧ Forall (fun r =>
         (status r = "FAIL" ↔ over_threshold r)
         ∧ (status r = "OK" ↔ ¬ over_threshold r)
         ∧ (temperature r = Some Float.f90 ∧ vibration r = Some Float.f0_08
            ∧ pressure r = Some Float.f28 → status r = "OK")) new)
  ∧ simulate_status Float.f90 Float.f0_08 Float.f28 = "OK".
Proof.
  split; [|reflexivity].
  destruct (simulate_data_spec m count w)
    as (new & w' & Hrun & Hdb & Hlen & Hnew & _).
  exists new. unfold world_after. rewrite Hrun. simpl.
  split; [done|]. split; [done|].
  eapply Forall_impl; [exact Hnew|].
  intros r (k & t & v & p & ->). unfold over_threshold, simulate_status.
  cbn [stored new_entry temperature vibration pressure status].
  pose proof (cell_gt_stored t Float.f90) as Et.
  pose proof (cell_gt_stored v Float.f0_08) as Ev.
  pose proof (cell_lt_stored p Float.f28) as Ep.
  rewrite Et, Ev, Ep.
  destruct (Float.gt t Float.f90);
    destruct (Float.gt v Float.f0_08);
    destruct (Float.lt p Float.f28); simpl;
    (split; [|split]);
    try (intros (Ht & Hv & Hp); rewrite Ht in Et; rewrite Hv in Ev;
         rewrite Hp in Ep; vm_compute in Et, Ev, Ep; congruence);
    split; try done; try tauto; try (intros [|[|]]; done).
  intros _ [|[|]]; done.
Qed.

(** ** The record store *)

Lemma add_data_spec m t v p s w :
  add_data m t v p s w
  = (Ok [("message", "Data added successfully")],
     with_db (db w ++ [stored (new_entry m t v p s (next_rowid (db w)))]) w).
Proof.
  unfold add_data, commit, modify, mbind, M_bind, bind. simpl.
  unfold flush. simpl. rewrite insert_row_snoc by apply new_entry_keyed.
  reflexivity.
Qed.

(** C4 as the claim words it fails: [add_data] stores a status that is
    neither OK nor FAIL. *)
Lemma add_data_breaks_status_invariant :
  status_invariant (fresh_world cycle3)
  ∧ ¬ status_invariant
        (world_after (add_data "m1" Float.f60 Float.f0_01 Float.f40 "fail")
           (fresh_world cycle3)).
Proof. split; [constructor|]. by apply (bool_decide_eq_false_1 _). Qed.

(** C4, amended.  In a store whose rows all have status OK or FAIL,
    [simulate_data] keeps it so, and [add_data], which stores the status it
    is given as it is, keeps it so exactly when that status is OK or FAIL. *)
Theorem status_invariant_preserved w :
  status_invariant w →
  (∀ m count, status_invariant (world_after (simulate_data m count) w))
  ∧ (∀ m t v p s,
       status_invariant (world_after (add_data m t v p s) w) ↔ valid_status s).
Proof.
  intros Hinv. split.
  - intros m count.
    destruct (simulate_data_spec m count w) as (new & w' & Hrun & Hdb & _ & Hnew & _).
    unfold world_after, status_invariant. rewrite Hrun. simpl. rewrite Hdb.
    apply Forall_app. split; [exact Hinv|].
    eapply Forall_impl; [exact Hnew|].
    intros r (k & t & v & p & ->). unfold simulate_status, valid_status. simpl.
    case_match; auto.
  - intros m t v p s. unfold world_after, status_invariant.
    rewrite add_data_spec. simpl. rewrite Forall_app, Forall_singleton. simpl.
    split; [by intros [_ ?]|by split].
Qed.

Lemma status_invariant_preserved_witness :
  status_invariant (world_after (simulate_data "m1" 3) (fresh_world cycle3))
  ∧ (∀ m count,
       status_invariant
         (world_after (simulate_data m count)
            (world_after (simulate_data "m1" 3) (fresh_world cycle3))))
  ∧ (∀ m t v p s,
       status_invariant
         (world_after (add_data m t v p s)
            (world_after (simulate_data "m1" 3) (fresh_world cycle3)))
       ↔ valid_status s).
Proof.
  split.
  - apply (bool_decide_unpack _). vm_compute. exact I.
  - apply (status_invariant_preserved
             (world_after (simulate_data "m1" 3) (fresh_world cycle3))).
    apply (bool_decide_unpack _). vm_compute. exact I.
Defined.

(** C8 as the claim words it fails: a negative [count] does not add
    [count] records, it adds none. *)
Lemma simulate_data_negative_count :
  Z.of_nat (length (db (world_after (simulate_data "m1" (-1)) (fresh_world cycle3))))
  ≠ Z.of_nat (length (db (fresh_world cycle3))) + (-1)
  ∧ db (world_after (simulate_data "m1" (-1)) (fresh_world cycle3))
    = db (fresh_world cycle3).
Proof. split; [vm_compute; discriminate|reflexivity]. Qed.

(** C8, amended.  [simulate_data(machine_id, count)] appends [max(count, 0)]
    rows to the table, all of them for [machine_id], leaves the rows already
    there and the files alone, and returns only the message that quotes
    [count]. *)
Theorem simulate_data_effect m count w :
  ∃ new,
    db (world_after (simulate_data m count) w) = db w ++ new
    ∧ Z.of_nat (length new) = Z.max count 0
    ∧ Forall (fun r => machine_id r = m) new
    ∧ files (world_after (simulate_data m count) w) = files w
    ∧ outcome (simulate_data m count) w
      = Ok [("message",
             pretty count +:+ " simulated IoT records added for machine " +:+ m)].
Proof.
  destruct (simulate_data_spec m count w)
    as (new & w' & Hrun & Hdb & Hlen & Hnew & Hfiles & _).
  exists new. unfold world_after, outcome. rewrite Hrun. simpl.
  repeat split; try done; [lia|].
  eapply Forall_impl; [exact Hnew|]. by intros r (k & t & v & p & ->).
Qed.

(** C7 as the claim words it fails: a NaN given as temperature is not
    read back, the row holds NULL in its place. *)
Lemma add_data_nan_not_read_back :
  ∃ r,
    outcome read_sql
      (world_after (add_data "m1" S754_nan Float.f0_01 Float.f40 "FAIL")
         (fresh_world cycle3))
    = Ok [r]
    ∧ machine_id r = "m1" ∧ status r = "FAIL"
    ∧ temperature r = None
    ∧ temperature r ≠ Some S754_nan.
Proof.
  exists (mkIoTMachineData 1 "m1" None (Some Float.f0_01) (Some Float.f40) "FAIL").
  split; [vm_compute; reflexivity|]. by repeat split.
Qed.

(** C7, amended.  After [add_data] with given field values, reading the
    table returns the rows that were there followed by one new row, which
    carries exactly the machine id and the status that were given, and the
    temperature, vibration and pressure as the table keeps them: a number
    that is neither NaN nor negative zero exactly as given, a NaN as NULL,
    a negative zero as 0.0. *)
Theorem add_data_round_trip m t v p s w :
  ∃ r,
    outcome read_sql (world_after (add_data m t v p s) w) = Ok (db w ++ [r])
    ∧ machine_id r = m ∧ status r = s
    ∧ row_id r = next_rowid (db w)
    ∧ temperature r = sqlite_real (Some t)
    ∧ vibration r = sqlite_real (Some v)
    ∧ pressure r = sqlite_real (Some p)
    ∧ (kept_as_given t → temperature r = Some t)
    ∧ (kept_as_given v → vibration r = Some v)
    ∧ (kept_as_given p → pressure r = Some p)
    ∧ sqlite_real (Some S754_nan) = None
    ∧ sqlite_real (Some (S754_zero true)) = Some (S754_zero false).
Proof.
  exists (stored (new_entry m t v p s (next_rowid (db w)))).
  unfold world_after. rewrite add_data_spec.
  repeat split; try reflexivity; intros Hk; by apply sqlite_real_kept.
Qed.

(** ** Training and prediction *)

Lemma train_model_unfold `{Estimator} w :
  train_model w = train_model_on (db w) w.
Proof.
  unfold train_model. erewrite bind_ok by reflexivity.
  unfold select_all, train_model_on. by destruct (db w).
Qed.

(** What the two statements under [with open(MODEL_FILE, "wb")] leave in
    the world. *)
Lemma persist_spec `{Estimator} (m : model) w :
  persist m w
  = match write_fault w with
    | None =>
        (Ok (Some m), with_files (<[MODEL_FILE := pickle_dumps m]> (files w)) w)
    | Some k =>
        if decide (length (pickle_dumps m) ≤ k)%nat
        then (Ok (Some m),
              with_fault (Some (k - length (pickle_dumps m))%nat)
                (with_files (<[MODEL_FILE := pickle_dumps m]> (files w)) w))
        else (Raise OSError,
              with_fault (Some 0%nat)
                (with_files (<[MODEL_FILE := take k (pickle_dumps m)]> (files w)) w))
    end.
Proof.
  unfold persist, pickle_dump, open_wb, modify, file_write.
  unfold mbind, M_bind, bind, mret, M_ret, ret, with_files, with_fault. simpl.
  rewrite lookup_insert_eq. simpl.
  destruct (write_fault w) as [k|];
    [destruct (decide (length (pickle_dumps m) ≤ k)%nat)|];
    by rewrite insert_insert_eq.
Qed.

Lemma train_spec `{Estimator} w :
  train w
  = match train_model w with
    | (Ok (Some _), w') => (Ok [("message", "Model trained successfully")], w')
    | (Ok None, w') => (Ok [("message", "No data available to train")], w')
    | (Raise e, w') => (Raise e, w')
    end.
Proof.
  unfold train, mbind, M_bind, bind.
  destruct (train_model w) as [[[m|]|e] w']; reflexivity.
Qed.

Lemma train_model_nonempty `{Estimator} w :
  db w ≠ [] →
  train_model w
  = (m ← lift (fit (feature_matrix (db w)) (label_vector (db w))); persist m) w.
Proof.
  intros Hne. rewrite train_model_unfold. unfold train_model_on.
  by destruct (db w).
Qed.

(** C2 as the claim words it fails: a model is on disk, new readings come
    in, and the write of the retrained model fails after one byte; the file
    then holds that one byte, not the model that was there. *)
Lemma failed_write_destroys_old_model :
  files before_retraining !! MODEL_FILE = Some [Byte.x80; Byte.x00]
  ∧ outcome (@train majority) before_retraining = Raise OSError
  ∧ files (world_after (@train majority) before_retraining) !! MODEL_FILE
    = Some [Byte.x80]
  ∧ files (world_after (@train majority) before_retraining) !! MODEL_FILE
    ≠ files before_retraining !! MODEL_FILE.
Proof. vm_compute. repeat split; discriminate. Qed.

(** C2, amended.  [train] on a store with rows, once the fit has returned a
    model, overwrites the model file in place and touches neither the table
    nor any other file: when the write goes through, the file holds exactly
    the serialised new model and [train] reports success; when the storage
    fails after [k] bytes, [train] raises the error and the file holds the
    first [k] bytes of the new serialisation, whatever model was there
    before. *)
Theorem train_overwrites_model_in_place `{Estimator} w (m : model) :
  db w ≠ [] →
  fit (feature_matrix (db w)) (label_vector (db w)) = Ok m →
  db (world_after train w) = db w
  ∧ (∀ p, p ≠ MODEL_FILE → files (world_after train w) !! p = files w !! p)
  ∧ match write_fault w with
    | Some k =>
        if decide (length (pickle_dumps m) ≤ k)%nat
        then outcome train w = Ok [("message", "Model trained successfully")]
             ∧ files (world_after train w) !! MODEL_FILE = Some (pickle_dumps m)
        else outcome train w = Raise OSError
             ∧ files (world_after train w) !! MODEL_FILE
               = Some (take k (pickle_dumps m))
    | None =>
        outcome train w = Ok [("message", "Model trained successfully")]
        ∧ files (world_after train w) !! MODEL_FILE = Some (pickle_dumps m)
    end.
Proof.
  intros Hne Hfit. unfold world_after, outcome.
  rewrite train_spec, train_model_nonempty by done.
  erewrite bind_ok by (unfold lift; by rewrite Hfit).
  rewrite persist_spec.
  destruct (write_fault w) as [k|];
    [destruct (decide (length (pickle_dumps m) ≤ k)%nat)|]; simpl;
    (split; [done|]); (split; [by intros p Hp; rewrite lookup_insert_ne|]);
    by rewrite lookup_insert_eq.
Qed.

Lemma train_overwrites_model_in_place_witness :
  db before_retraining ≠ []
  ∧ @fit majority (feature_matrix (db before_retraining))
      (label_vector (db before_retraining)) = Ok 1
  ∧ outcome (@train majority) before_retraining = Raise OSError
  ∧ files (world_after (@train majority) before_retraining) !! MODEL_FILE
    = Some (take 1 (@pickle_dumps majority 1)).
Proof.
  split; [vm_compute; discriminate|]. split; [vm_compute; reflexivity|].
  apply (@train_overwrites_model_in_place majority before_retraining 1).
  - vm_compute; discriminate.
  - vm_compute; reflexivity.
Defined.

(** C5.  [train] on an empty table returns the message "No data available
    to train" as an ordinary result and changes nothing in the world; a
    model file that is there stays as it is. *)
Theorem train_on_empty_store `{Estimator} w :
  db w = [] →
  train w = (Ok [("message", "No data available to train")], w)
  ∧ files (world_after train w) !! MODEL_FILE = files w !! MODEL_FILE.
Proof.
  intros Hdb. unfold world_after.
  rewrite train_spec, train_model_unfold, Hdb. by split.
Qed.

Lemma train_on_empty_store_witness :
  db (with_files {[MODEL_FILE := [Byte.x80; Byte.x01]]} (fresh_world cycle3)) = []
  ∧ @train majority
      (with_files {[MODEL_FILE := [Byte.x80; Byte.x01]]} (fresh_world cycle3))
    = (Ok [("message", "No data available to train")],
       with_files {[MODEL_FILE := [Byte.x80; Byte.x01]]} (fresh_world cycle3))
  ∧ files (world_after (@train majority)
             (with_files {[MODEL_FILE := [Byte.x80; Byte.x01]]} (fresh_world cycle3)))
      !! MODEL_FILE
    = files (with_files {[MODEL_FILE := [Byte.x80; Byte.x01]]} (fresh_world cycle3))
        !! MODEL_FILE.
Proof.
  split; [reflexivity|].
  apply (@train_on_empty_store majority
           (with_files {[MODEL_FILE := [Byte.x80; Byte.x01]]} (fresh_world cycle3))).
  reflexivity.
Defined.

(** C6.  [predict] with no model file on disk returns the error entry
    "Model not trained yet" as an ordinary result, whatever the three
    readings are, and changes nothing in the world. *)
Theorem predict_without_model `{Estimator} t v p w :
  files w !! MODEL_FILE = None →
  predict t v p w = (Ok [("error", "Model not trained yet")], w).
Proof.
  intros Hnone. unfold predict, load_model, path_exists.
  unfold mbind, M_bind, bind, get_world, mret, M_ret, ret. simpl.
  rewrite Hnone. rewrite bool_decide_eq_false_2; [done|].
  by intros [? ?].
Qed.

Lemma predict_without_model_witness :
  files (world_after (simulate_data "m1" 3) (fresh_world cycle3)) !! MODEL_FILE = None
  ∧ @predict majority Float.f100 Float.f0_1 Float.f25
      (world_after (simulate_data "m1" 3) (fresh_world cycle3))
    = (Ok [("error", "Model not trained yet")],
       world_after (simulate_data "m1" 3) (fresh_world cycle3)).
Proof.
  split; [vm_compute; reflexivity|].
  apply (@predict_without_model majority).
  vm_compute; reflexivity.
Defined.

(** C9.  On a table with rows whose labels are all the same [c], [train]
    hands the constant label vector to the fit without any check of its
    own: what the fit raises, [train] raises, with nothing written; what
    the fit returns is written out as the model. *)
Theorem train_fits_single_class `{Estimator} w c :
  db w ≠ [] →
  Forall (fun r => label (status r) = c) (db w) →
  label_vector (db w) = replicate (length (db w)) c
  ∧ train_model w
    = (m ← lift (fit (feature_matrix (db w)) (replicate (length (db w)) c));
       persist m) w
  ∧ (∀ e, fit (feature_matrix (db w)) (replicate (length (db w)) c) = Raise e →
          train w = (Raise e, w)).
Proof.
  intros Hne Hsame.
  assert (label_vector (db w) = replicate (length (db w)) c) as Hy.
  { unfold label_vector. clear Hne.
    induction Hsame as [|r t Hr _ IH]; [done|]. csimpl. by rewrite Hr, IH. }
  split; [done|]. split.
  - by rewrite train_model_nonempty, Hy.
  - intros e He. rewrite train_spec, train_model_nonempty, Hy by done.
    erewrite bind_raise; [done|]. unfold lift. by rewrite He.
Qed.

Lemma train_fits_single_class_witness :
  db (world_after (simulate_data "m1" 3) (fresh_world cycle3)) ≠ []
  ∧ Forall (fun r => label (status r) = 1)
      (db (world_after (simulate_data "m1" 3) (fresh_world cycle3)))
  ∧ @train majority (world_after (simulate_data "m1" 3) (fresh_world cycle3))
    = (Raise (ValueError "This solver needs samples of at least 2 classes in the data"),
       world_after (simulate_data "m1" 3) (fresh_world cycle3)).
Proof.
  assert (db (world_after (simulate_data "m1" 3) (fresh_world cycle3)) ≠ []) as Hne
    by (vm_compute; discriminate).
  assert (Forall (fun r => label (status r) = 1)
            (db (world_after (simulate_data "m1" 3) (fresh_world cycle3)))) as Hsame
    by (vm_compute; repeat constructor).
  split; [exact Hne|]. split; [exact Hsame|].
  apply (@train_fits_single_class majority _ 1 Hne Hsame).
  vm_compute; reflexivity.
Defined.

(** C10.  The label vector [train_model] fits on has, row for row, 1 where
    the status is exactly the string "FAIL" and 0 where it is anything
    else, "fail" and "Ok" included; a status stored by [add_data] enters
    it under the same rule. *)
Theorem label_vector_only_FAIL_is_1 :
  (∀ s, label s = 1 ↔ s = "FAIL")
  ∧ (∀ s, label s = 0 ↔ s ≠ "FAIL")
  ∧ label "fail" = 0 ∧ label "Ok" = 0 ∧ label "OK" = 0 ∧ label "FAIL" = 1
  ∧ (∀ data, label_vector data
             = (fun r => if decide (status r = "FAIL") then 1 else 0) <$> data)
  ∧ (∀ m t v p s w,
       label_vector (db (world_after (add_data m t v p s) w))
       = label_vector (db w) ++ [if decide (s = "FAIL") then 1 else 0])
  ∧ (∀ (E : Estimator) w, train_model w = train_model_on (db w) w).
Proof.
  assert (∀ s, label s = if decide (s = "FAIL") then 1 else 0) as Hl by done.
  split; [|split].
  - intros s. rewrite Hl. case_decide; split; done.
  - intros s. rewrite Hl. case_decide; split; done.
  - repeat split; try reflexivity.
    intros m t v p s w. unfold world_after. rewrite add_data_spec. simpl.
    unfold label_vector. by rewrite fmap_app.
Qed.

(** * Further properties of the handlers *)

(** ** The predictor *)

Lemma predict_without_model_aux `{Estimator} t v p w :
  files w !! MODEL_FILE = None →
  predict t v p w = (Ok [("error", "Model not trained yet")], w).
Proof.
  intros Hnone. unfold predict, load_model, path_exists.
  unfold mbind, M_bind, bind, get_world, mret, M_ret, ret. simpl.
  rewrite Hnone. rewrite bool_decide_eq_false_2; [done|].
  by intros [? ?].
Qed.

Lemma predict_spec `{Estimator} t v p w :
  predict t v p w
  = match files w !! MODEL_FILE with
    | None => (Ok [("error", "Model not trained yet")], w)
    | Some bs =>
        match pickle_loads bs with
        | Raise e => (Raise e, w)
        | Ok Falsy => (Ok [("error", "Model not trained yet")], w)
        | Ok Foreign => (Raise AttributeError, w)
        | Ok (Fitted m) =>
            match model_predict m [(t, v, p)] with
            | [] => (Raise IndexError, w)
            | c :: _ =>
                (Ok [("prediction", if decide (c = 1) then "FAIL" else "OK")], w)
            end
        end
    end.
Proof.
  destruct (files w !! MODEL_FILE) as [bs|] eqn:Hfile;
    [|by apply predict_without_model_aux].
  unfold predict, load_model, path_exists, pickle_load, file_read.
  unfold mbind, M_bind, bind, get_world, mret, M_ret, ret, lift. simpl.
  repeat (rewrite Hfile; simpl).
  destruct (pickle_loads bs) as [[|m|]|e]; try done.
  by destruct (model_predict m [(t, v, p)]).
Qed.

Lemma predict_changes_nothing_aux `{Estimator} t v p w :
  world_after (predict t v p) w = w.
Proof.
  unfold world_after. rewrite predict_spec.
  destruct (files w !! MODEL_FILE) as [bs|]; [|done].
  destruct (pickle_loads bs) as [[|m|]|e]; try done.
  by destruct (model_predict m [(t, v, p)]).
Qed.

(** X1.  [predict] changes nothing: whether it answers with a prediction,
    with "Model not trained yet" or with an exception, the table, the
    files and the random state are as they were. *)
Theorem predict_changes_nothing `{Estimator} t v p w :
  world_after (predict t v p) w = w.
Proof. apply predict_changes_nothing_aux. Qed.

(** X2.  [predict] answers "Model not trained yet" exactly when there is
    no model file or the file unpickles to an object whose truth value is
    false; a file holding anything else gives a prediction or an
    exception. *)
Theorem predict_not_trained_iff `{Estimator} t v p w :
  outcome (predict t v p) w = Ok [("error", "Model not trained yet")]
  ↔ files w !! MODEL_FILE = None
    ∨ ∃ bs, files w !! MODEL_FILE = Some bs ∧ pickle_loads bs = Ok Falsy.
Proof.
  unfold outcome. rewrite predict_spec.
  destruct (files w !! MODEL_FILE) as [bs|]; [|by split; [left|]].
  destruct (pickle_loads bs) as [[|m|]|e] eqn:Hload; simpl.
  - split; [|done]. intros _. right. by exists bs.
  - destruct (model_predict m [(t, v, p)]); simpl;
      (split; [done|]); intros [|(bs' & [= <-] & Hbs')]; congruence.
  - split; [done|]. intros [|(bs' & [= <-] & Hbs')]; congruence.
  - split; [done|]. intros [|(bs' & [= <-] & Hbs')]; congruence.
Qed.

(** X3.  With a loadable model on disk, [predict] reports "FAIL" when the
    first class the model predicts for the reading is 1 and "OK" for every
    other class. *)
Theorem predict_reports_first_class `{Estimator} t v p w bs (m : model) c rest :
  files w !! MODEL_FILE = Some bs →
  pickle_loads bs = Ok (Fitted m) →
  model_predict m [(t, v, p)] = c :: rest →
  outcome (predict t v p) w
  = Ok [("prediction", if decide (c = 1) then "FAIL" else "OK")]
  ∧ (outcome (predict t v p) w = Ok [("prediction", "FAIL")] ↔ c = 1).
Proof.
  intros Hfile Hload Hpred. unfold outcome.
  rewrite predict_spec, Hfile, Hload, Hpred. simpl.
  split; [done|]. case_decide; split; done.
Qed.

Lemma predict_reports_first_class_witness :
  files first_training !! MODEL_FILE = Some [Byte.x80; Byte.x00]
  ∧ @pickle_loads majority [Byte.x80; Byte.x00] = Ok (Fitted 0)
  ∧ @model_predict majority 0 [(Float.f100, Float.f0_1, Float.f25)] = [0]
  ∧ outcome (@predict majority Float.f100 Float.f0_1 Float.f25) first_training
    = Ok [("prediction", "OK")].
Proof.
  split; [vm_compute; reflexivity|]. split; [reflexivity|]. split; [reflexivity|].
  apply (@predict_reports_first_class majority Float.f100 Float.f0_1 Float.f25
           first_training [Byte.x80; Byte.x00] 0 0 []).
  - vm_compute; reflexivity.
  - reflexivity.
  - reflexivity.
Defined.

(** X4.  A model file that cannot be unpickled makes [predict] raise the
    error of [pickle.load]; it is not reported as "not trained". *)
Theorem predict_unreadable_model_raises `{Estimator} t v p w bs e :
  files w !! MODEL_FILE = Some bs →
  pickle_loads bs = Raise e →
  predict t v p w = (Raise e, w).
Proof. intros Hfile Hload. by rewrite predict_spec, Hfile, Hload. Qed.

Lemma predict_unreadable_model_raises_witness :
  files (with_files {[MODEL_FILE := []]} (fresh_world cycle3)) !! MODEL_FILE = Some []
  ∧ @pickle_loads majority [] = Raise UnpicklingError
  ∧ @predict majority Float.f60 Float.f0_01 Float.f40
      (with_files {[MODEL_FILE := []]} (fresh_world cycle3))
    = (Raise UnpicklingError, with_files {[MODEL_FILE := []]} (fresh_world cycle3)).
Proof.
  split; [vm_compute; reflexivity|]. split; [reflexivity|].
  apply (@predict_unreadable_model_raises majority Float.f60 Float.f0_01 Float.f40
           (with_files {[MODEL_FILE := []]} (fresh_world cycle3)) [] UnpicklingError).
  - vm_compute; reflexivity.
  - reflexivity.
Defined.

(** ** The trainer *)

Lemma train_world_cases `{Estimator} w :
  world_after train w = w
  ∨ ∃ bs k, world_after train w
            = with_fault k (with_files (<[MODEL_FILE := bs]> (files w)) w).
Proof.
  unfold world_after. rewrite train_spec, train_model_unfold.
  unfold train_model_on. destruct (db w) as [|r t] eqn:Hdb; [by left|].
  unfold mbind, M_bind, bind, lift.
  destruct (fit _ _) as [m|e]; [|by left].
  right. rewrite persist_spec.
  destruct (write_fault w) as [k|] eqn:Hk;
    [destruct (decide (length (pickle_dumps m) ≤ k)%nat)|]; simpl.
  - by eexists _, _.
  - by eexists _, _.
  - exists (pickle_dumps m), None. unfold with_fault, with_files. simpl.
    by rewrite Hk.
Qed.

Lemma train_leaves_records_aux `{Estimator} w :
  db (world_after train w) = db w
  ∧ rand_drawn (world_after train w) = rand_drawn w
  ∧ (∀ p, p ≠ MODEL_FILE → files (world_after train w) !! p = files w !! p)
  ∧ (is_Some (files w !! MODEL_FILE)
     → is_Some (files (world_after train w) !! MODEL_FILE)).
Proof.
  destruct (train_world_cases w) as [->|(bs & k & ->)]; [done|].
  simpl. repeat split.
  - intros p Hp. by rewrite lookup_insert_ne.
  - intros _. by rewrite lookup_insert_eq.
Qed.

(** X5.  [train] never touches the table, the random state or any file
    other than the model file, whatever its outcome. *)
Theorem train_leaves_records_and_other_files `{Estimator} w :
  db (world_after train w) = db w
  ∧ rand_drawn (world_after train w) = rand_drawn w
  ∧ ∀ p, p ≠ MODEL_FILE → files (world_after train w) !! p = files w !! p.
Proof.
  destruct (train_leaves_records_aux w) as (? & ? & ? & _). by repeat split.
Qed.

(** X6.  When the fit raises on a table with rows, [train] raises the same
    exception before the model file is opened: the world, and with it a
    model persisted earlier, is unchanged. *)
Theorem train_fit_error_keeps_world `{Estimator} w e :
  db w ≠ [] →
  fit (feature_matrix (db w)) (label_vector (db w)) = Raise e →
  train w = (Raise e, w).
Proof.
  intros Hne Hfit. rewrite train_spec, train_model_nonempty by done.
  erewrite bind_raise; [done|]. unfold lift. by rewrite Hfit.
Qed.

Lemma train_fit_error_keeps_world_witness :
  db (with_files {[MODEL_FILE := [Byte.x80; Byte.x00]]}
        (world_after (simulate_data "m1" 3) (fresh_world cycle3))) ≠ []
  ∧ @train majority
      (with_files {[MODEL_FILE := [Byte.x80; Byte.x00]]}
         (world_after (simulate_data "m1" 3) (fresh_world cycle3)))
    = (Raise (ValueError "This solver needs samples of at least 2 classes in the data"),
       with_files {[MODEL_FILE := [Byte.x80; Byte.x00]]}
         (world_after (simulate_data "m1" 3) (fresh_world cycle3))).
Proof.
  split; [vm_compute; discriminate|].
  apply (@train_fit_error_keeps_world majority
           (with_files {[MODEL_FILE := [Byte.x80; Byte.x00]]}
              (world_after (simulate_data "m1" 3) (fresh_world cycle3)))).
  - vm_compute; discriminate.
  - vm_compute; reflexivity.
Defined.

Lemma train_after_fit `{Estimator} w (m : model) :
  db w ≠ [] →
  fit (feature_matrix (db w)) (label_vector (db w)) = Ok m →
  train w
  = match persist m w with
    | (Ok _, w') => (Ok [("message", "Model trained successfully")], w')
    | (Raise e, w') => (Raise e, w')
    end.
Proof.
  intros Hne Hfit. rewrite train_spec, train_model_nonempty by done.
  erewrite bind_ok by (unfold lift; by rewrite Hfit).
  rewrite persist_spec.
  destruct (write_fault w) as [k|];
    [destruct (decide (length (pickle_dumps m) ≤ k)%nat)|]; done.
Qed.

(** X7.  Training and then predicting: when the fit returns a model, the
    storage does not fail and the model survives pickling, [train] reports
    success and the next [predict] answers with that very model, "FAIL"
    for class 1 and "OK" otherwise. *)
Theorem train_then_predict `{Estimator} w (m : model) t v p c rest :
  db w ≠ [] →
  fit (feature_matrix (db w)) (label_vector (db w)) = Ok m →
  write_fault w = None →
  pickle_loads (pickle_dumps m) = Ok (Fitted m) →
  model_predict m [(t, v, p)] = c :: rest →
  outcome train w = Ok [("message", "Model trained successfully")]
  ∧ outcome (predict t v p) (world_after train w)
    = Ok [("prediction", if decide (c = 1) then "FAIL" else "OK")].
Proof.
  intros Hne Hfit Hfault Hload Hpred. unfold outcome, world_after.
  rewrite (train_after_fit w m Hne Hfit), persist_spec, Hfault. simpl.
  split; [done|].
  rewrite predict_spec. simpl. by rewrite lookup_insert_eq, Hload, Hpred.
Qed.

Lemma train_then_predict_witness :
  outcome (@train majority)
    (world_after (simulate_data "m1" 3)
       (world_after (add_data "m2" Float.f60 Float.f0_01 Float.f40 "OK")
          (fresh_world cycle3)))
  = Ok [("message", "Model trained successfully")]
  ∧ outcome (@predict majority Float.f60 Float.f0_01 Float.f40)
      (world_after (@train majority)
         (world_after (simulate_data "m1" 3)
            (world_after (add_data "m2" Float.f60 Float.f0_01 Float.f40 "OK")
               (fresh_world cycle3))))
    = Ok [("prediction", "FAIL")].
Proof.
  apply (@train_then_predict majority
           (world_after (simulate_data "m1" 3)
              (world_after (add_data "m2" Float.f60 Float.f0_01 Float.f40 "OK")
                 (fresh_world cycle3)))
           1 Float.f60 Float.f0_01 Float.f40 1 []).
  - vm_compute; discriminate.
  - vm_compute; reflexivity.
  - reflexivity.
  - reflexivity.
  - reflexivity.
Defined.

(** X8.  A write that fails part-way reaches the predictor: after [train]
    has raised with [k] bytes of the new model written, [predict] loads
    those [k] bytes, and raises when they do not unpickle. *)
Theorem failed_training_then_predict `{Estimator} w (m : model) k e t v p :
  db w ≠ [] →
  fit (feature_matrix (db w)) (label_vector (db w)) = Ok m →
  write_fault w = Some k →
  (k < length (pickle_dumps m))%nat →
  pickle_loads (take k (pickle_dumps m)) = Raise e →
  outcome train w = Raise OSError
  ∧ outcome (predict t v p) (world_after train w) = Raise e.
Proof.
  intros Hne Hfit Hfault Hk Hload. unfold outcome, world_after.
  rewrite (train_after_fit w m Hne Hfit), persist_spec, Hfault.
  destruct (decide (length (pickle_dumps m) ≤ k)%nat); [lia|]. simpl.
  split; [done|].
  rewrite predict_spec. simpl. by rewrite lookup_insert_eq, Hload.
Qed.

Lemma failed_training_then_predict_witness :
  outcome (@train majority) before_retraining = Raise OSError
  ∧ outcome (@predict majority Float.f60 Float.f0_01 Float.f40)
      (world_after (@train majority) before_retraining)
    = Raise UnpicklingError.
Proof.
  apply (@failed_training_then_predict majority before_retraining 1 1%nat
           UnpicklingError Float.f60 Float.f0_01 Float.f40).
  - vm_compute; discriminate.
  - vm_compute; reflexivity.
  - reflexivity.
  - vm_compute; lia.
  - reflexivity.
Defined.

(** ** The simulator, iteration by iteration *)

Lemma simulated_entry_shift m src d i :
  simulated_entry m src (S (S (S d))) i = simulated_entry m src d (S i).
Proof.
  unfold simulated_entry.
  replace (S (S (S d)) + 3 * i)%nat with (d + 3 * S i)%nat by lia.
  reflexivity.
Qed.

Lemma simulate_loop_closed n m (session : list pending) w :
  simulate_loop n m session w
  = (Ok (session ++ (simulated_entry m (rand_source w) (rand_drawn w) <$> seq 0 n)),
     mkWorld (db w) (files w) (rand_source w) (rand_drawn w + 3 * n)%nat
       (write_fault w)).
Proof.
  revert session w. induction n as [|n IH]; intros session w.
  - simpl. rewrite app_nil_r, Nat.add_0_r. by destruct w.
  - set (src := rand_source w). set (d := rand_drawn w).
    set (w3 := mkWorld (db w) (files w) src (S (S (S d))) (write_fault w)).
    set (t := Float.add Float.f60 (Float.mul (Float.sub Float.f100 Float.f60)
                 (src d))).
    set (v := Float.add Float.f0_01 (Float.mul (Float.sub Float.f0_1 Float.f0_01)
                 (src (S d)))).
    set (p := Float.add Float.f25 (Float.mul (Float.sub Float.f40 Float.f25)
                 (src (S (S d))))).
    change (simulate_loop (S n) m session w)
      with (simulate_loop n m (session ++ [new_entry m t v p (simulate_status t v p)]) w3).
    rewrite IH. simpl. f_equal; [f_equal|f_equal; lia].
    rewrite <- app_assoc. f_equal. simpl. f_equal.
    + unfold simulated_entry.
      replace (d + 3 * 0)%nat with d by lia.
      replace (d + 1)%nat with (S d) by lia.
      replace (d + 2)%nat with (S (S d)) by lia.
      reflexivity.
    + rewrite <- fmap_S_seq, <- list_fmap_compose.
      apply list_fmap_ext. intros i x _. apply simulated_entry_shift.
Qed.

Lemma imap_seq_diag {A} (h : nat -> nat -> A) n :
  imap h (seq 0 n) = (fun i => h i i) <$> seq 0 n.
Proof.
  apply list_eq. intros i. rewrite list_lookup_imap, list_lookup_fmap.
  destruct (seq 0 n !! i) as [x|] eqn:E; [|done].
  apply lookup_seq in E as [-> _]. reflexivity.
Qed.

Lemma simulate_data_world m count w :
  world_after (simulate_data m count) w
  = mkWorld
      (db w
       ++ ((fun i => stored (simulated_entry m (rand_source w) (rand_drawn w) i
                               (next_rowid (db w) + Z.of_nat i)))
           <$> seq 0 (Z.to_nat count)))
      (files w) (rand_source w) (rand_drawn w + 3 * Z.to_nat count)%nat
      (write_fault w).
Proof.
  unfold world_after, simulate_data.
  erewrite bind_ok by apply simulate_loop_closed.
  simpl. unfold with_db. simpl. f_equal.
  rewrite flush_spec.
  - f_equal. rewrite imap_fmap.
    apply (imap_seq_diag
             (fun i x => stored (simulated_entry m (rand_source w) (rand_drawn w) x
                                   (next_rowid (db w) + Z.of_nat i)))).
  - apply Forall_fmap, Forall_true. intros i. apply new_entry_keyed.
Qed.

(** X9.  The whole effect of [simulate_data(machine_id, count)]: with
    [n = max(count, 0)], it draws exactly [3 n] random numbers, three per
    row in the order temperature, vibration, pressure, and appends [n] rows,
    each as the table keeps it, whose ids run on from the next free id;
    files and earlier rows are as they were. *)
Theorem simulate_data_closed_form m count w :
  world_after (simulate_data m count) w
  = mkWorld
      (db w
       ++ ((fun i => stored (simulated_entry m (rand_source w) (rand_drawn w) i
                               (next_rowid (db w) + Z.of_nat i)))
           <$> seq 0 (Z.to_nat count)))
      (files w) (rand_source w) (rand_drawn w + 3 * Z.to_nat count)%nat
      (write_fault w).
Proof. apply simulate_data_world. Qed.

(** X10.  The simulator and the trainer agree on the labels: for the rows
    [simulate_data] appends, the label vector of [train_model] is 1 exactly
    on the rows over a threshold. *)
Theorem simulated_rows_train_as_labelled m count w :
  ∃ new,
    db (world_after (simulate_data m count) w) = db w ++ new
    ∧ label_vector new = (fun r => if over_thresholdb r then 1 else 0) <$> new.
Proof.
  destruct (simulate_data_spec m count w) as (new & w' & Hrun & Hdb & _ & Hnew & _).
  exists new. unfold world_after. rewrite Hrun. split; [done|].
  unfold label_vector. apply Forall_fmap_ext_1.
  eapply Forall_impl; [exact Hnew|].
  intros r (k & t & v & p & ->). unfold over_thresholdb, simulate_status.
  cbn [stored new_entry temperature vibration pressure status].
  rewrite !cell_gt_stored, cell_lt_stored.
  by destruct (Float.gt t Float.f90 || Float.gt v Float.f0_08
               || Float.lt p Float.f28).
Qed.

(** ** Sequences of requests *)

Lemma next_rowid_above (t : table) r : r ∈ t → row_id r < next_rowid t.
Proof.
  intros Hr. unfold next_rowid. destruct (max_rowid t) as [m|] eqn:E.
  - apply max_rowid_ge in E. rewrite Forall_forall in E.
    specialize (E r Hr). simpl in E. lia.
  - apply max_rowid_None in E as ->. by apply elem_of_nil in Hr.
Qed.

Lemma flush_app (s1 s2 : list pending) (t : table) :
  flush (s1 ++ s2) t = flush s2 (flush s1 t).
Proof. unfold flush. by rewrite foldl_app. Qed.

Lemma flush_ids_increasing (session : list pending) (t : table) :
  Forall keyed session → ids_increasing t → ids_increasing (flush session t).
Proof.
  intros Hs Ht. rewrite flush_spec by done.
  intros i j ri rj Hi Hj Hlt.
  apply lookup_app_Some in Hi as [Hi|[Hli Hi]];
    apply lookup_app_Some in Hj as [Hj|[Hlj Hj]].
  - by eapply Ht.
  - rewrite list_lookup_imap in Hj.
    apply fmap_Some in Hj as (e & He & ->).
    eapply Forall_lookup_1 in Hs; [|exact He]. rewrite row_id_stored, Hs.
    assert (row_id ri < next_rowid t)
      by (eapply next_rowid_above, list_elem_of_lookup_2, Hi).
    lia.
  - apply lookup_lt_Some in Hj. lia.
  - rewrite list_lookup_imap in Hi, Hj.
    apply fmap_Some in Hi as (ei & Hei & ->).
    apply fmap_Some in Hj as (ej & Hej & ->).
    rewrite !row_id_stored.
    rewrite (Forall_lookup_1 _ _ _ _ Hs Hei), (Forall_lookup_1 _ _ _ _ Hs Hej).
    lia.
Qed.

Lemma world_after_reply {A B} (h : M A) (f : A -> B) w :
  snd ((r ← h; mret (f r)) w) = snd (h w).
Proof.
  unfold mbind, M_bind, bind, mret, M_ret, ret.
  by destruct (h w) as [[a|e] w'].
Qed.

Lemma favicon_world w : snd (favicon w) = w.
Proof.
  unfold favicon, path_exists, mbind, M_bind, bind, get_world, mret, M_ret, ret.
  simpl. by destruct (bool_decide _).
Qed.

(** What one request does to the table: it flushes a session of objects
    that take the key they are given (an empty one for the routes that do
    not write). *)
Lemma handle_db `{Estimator} q w :
  ∃ session, Forall keyed session
             ∧ db (snd (handle q w)) = flush session (db w).
Proof.
  destruct q as [| |m t v p s|m count| |t v p]; cbn [handle].
  - by exists [].
  - exists []. by rewrite favicon_world.
  - exists [new_entry m t v p s]. rewrite world_after_reply.
    split; [repeat constructor; apply new_entry_keyed|]. reflexivity.
  - rewrite world_after_reply.
    destruct (simulate_loop_spec (Z.to_nat count) m [] w)
      as (session & w1 & Hrun & _ & Hnew & Hdb & _).
    exists session. split.
    + eapply Forall_impl; [exact Hnew|]. by intros e [He _].
    + unfold simulate_data. erewrite bind_ok by exact Hrun.
      simpl. by rewrite Hdb.
  - exists []. rewrite world_after_reply.
    fold (world_after train w).
    by destruct (train_leaves_records_aux w) as [-> _].
  - exists []. rewrite world_after_reply.
    fold (world_after (predict t v p) w). by rewrite predict_changes_nothing_aux.
Qed.

Lemma handle_files `{Estimator} q w :
  (q ≠ GetTrainModel → files (snd (handle q w)) = files w)
  ∧ (∀ p, p ≠ MODEL_FILE → files (snd (handle q w)) !! p = files w !! p)
  ∧ (is_Some (files w !! MODEL_FILE)
     → is_Some (files (snd (handle q w)) !! MODEL_FILE)).
Proof.
  assert (files (snd (handle q w)) = files w
          → (∀ p, p ≠ MODEL_FILE → files (snd (handle q w)) !! p = files w !! p)
            ∧ (is_Some (files w !! MODEL_FILE)
               → is_Some (files (snd (handle q w)) !! MODEL_FILE))) as Hsame
    by (by intros ->).
  destruct q as [| |m t v p s|m count| |t v p]; cbn [handle] in *.
  - split; [done|by apply Hsame].
  - rewrite favicon_world in *. split; [done|by apply Hsame].
  - rewrite world_after_reply in *. rewrite add_data_spec in *.
    split; [done|by apply Hsame].
  - rewrite world_after_reply in *.
    destruct (simulate_data_spec m count w) as (new & w' & Hrun & _ & _ & _ & Hf & _).
    rewrite Hrun in *. simpl in *. split; [done|by apply Hsame].
  - rewrite world_after_reply. fold (world_after train w).
    destruct (train_leaves_records_aux w) as (_ & _ & Hother & Hmodel).
    by split.
  - rewrite world_after_reply in *. fold (world_after (predict t v p) w) in *.
    rewrite predict_changes_nothing_aux in *. split; [done|by apply Hsame].
Qed.

Lemma serve_cons_world `{Estimator} q qs w :
  snd (serve (q :: qs) w) = snd (serve qs (snd (handle q w))).
Proof.
  simpl. destruct (handle q w) as [r w']. simpl.
  by destruct (serve qs w') as [rs w''].
Qed.

Lemma serve_db `{Estimator} qs w :
  ∃ session, Forall keyed session
             ∧ db (snd (serve qs w)) = flush session (db w).
Proof.
  revert w. induction qs as [|q qs IH]; intros w.
  - by exists [].
  - rewrite serve_cons_world.
    destruct (handle_db q w) as (s1 & Hs1 & Hdb1).
    destruct (IH (snd (handle q w))) as (s2 & Hs2 & Hdb2).
    exists (s1 ++ s2). split; [by apply Forall_app|].
    by rewrite Hdb2, Hdb1, flush_app.
Qed.

Lemma serve_files `{Estimator} qs w :
  (Forall (fun q => q ≠ GetTrainModel) qs → files (snd (serve qs w)) = files w)
  ∧ (∀ p, p ≠ MODEL_FILE → files (snd (serve qs w)) !! p = files w !! p)
  ∧ (is_Some (files w !! MODEL_FILE)
     → is_Some (files (snd (serve qs w)) !! MODEL_FILE)).
Proof.
  revert w. induction qs as [|q qs IH]; intros w; [done|].
  rewrite serve_cons_world.
  destruct (handle_files q w) as (Hq1 & Hq2 & Hq3).
  destruct (IH (snd (handle q w))) as (IH1 & IH2 & IH3).
  split; [|split].
  - intros Hno. apply Forall_cons in Hno as [Hq Hqs].
    by rewrite IH1, Hq1.
  - intros p Hp. by rewrite IH2, Hq2.
  - intros Hsome. by apply IH3, Hq3.
Qed.

(** X11.  The table is append-only under any sequence of requests: the
    rows present before are still there afterwards, unchanged and in the
    same order, at the head of the table, also when requests raised. *)
Theorem serve_append_only `{Estimator} qs w :
  db w `prefix_of` db (snd (serve qs w)).
Proof.
  destruct (serve_db qs w) as (session & Hs & ->).
  rewrite flush_spec by done. by eexists.
Qed.

(** X12.  Ids that grow strictly along the rows keep doing so under any
    sequence of requests; in particular ids stay unique. *)
Theorem serve_keeps_ids_increasing `{Estimator} qs w :
  ids_increasing (db w) →
  ids_increasing (db (snd (serve qs w)))
  ∧ NoDup (row_id <$> db (snd (serve qs w))).
Proof.
  intros Hinc.
  assert (ids_increasing (db (snd (serve qs w)))) as Hinc'.
  { destruct (serve_db qs w) as (session & Hs & ->).
    by apply flush_ids_increasing. }
  split; [done|].
  apply NoDup_alt. intros i j k Hi Hj.
  rewrite list_lookup_fmap in Hi, Hj.
  apply fmap_Some in Hi as (ri & Hi & ->).
  apply fmap_Some in Hj as (rj & Hj & Hk).
  destruct (Nat.lt_trichotomy i j) as [Hlt|[->|Hlt]]; [|done|].
  - pose proof (Hinc' i j ri rj Hi Hj Hlt). lia.
  - pose proof (Hinc' j i rj ri Hj Hi Hlt). lia.
Qed.

Lemma serve_keeps_ids_increasing_witness :
  ids_increasing (db (fresh_world cycle3))
  ∧ ids_increasing
      (db (snd (@serve majority
                  [GetSimulateData "m1" 2; GetTrainModel;
                   GetAddData "m2" Float.f60 Float.f0_01 Float.f40 "OK"]
                  (fresh_world cycle3))))
  ∧ NoDup (row_id <$>
           db (snd (@serve majority
                      [GetSimulateData "m1" 2; GetTrainModel;
                       GetAddData "m2" Float.f60 Float.f0_01 Float.f40 "OK"]
                      (fresh_world cycle3)))).
Proof.
  assert (ids_increasing (db (fresh_world cycle3))) as H0.
  { intros i j ri rj Hi. by apply list_elem_of_lookup_2, elem_of_nil in Hi. }
  split; [exact H0|].
  apply (@serve_keeps_ids_increasing majority
           [GetSimulateData "m1" 2; GetTrainModel;
            GetAddData "m2" Float.f60 Float.f0_01 Float.f40 "OK"]
           (fresh_world cycle3) H0).
Defined.

(** X13.  In a service started on an empty table, after any sequence of
    requests the ids of the rows are 1, 2, ..., N in table order, without
    gaps. *)
Theorem serve_from_fresh_ids `{Estimator} qs src :
  row_id <$> db (snd (serve qs (fresh_world src)))
  = (fun i => 1 + Z.of_nat i)
    <$> seq 0 (length (db (snd (serve qs (fresh_world src))))).
Proof.
  destruct (serve_db qs (fresh_world src)) as (session & Hs & ->).
  rewrite flush_spec by done. simpl.
  rewrite length_imap. apply list_eq. intros i.
  rewrite !list_lookup_fmap, list_lookup_imap.
  unfold pending in *.
  destruct (session !! i) as [e|] eqn:He; simpl.
  - rewrite (lookup_seq_lt _ _ _ (lookup_lt_Some _ _ _ He)). simpl.
    by rewrite (Forall_lookup_1 _ _ _ _ Hs He).
  - by rewrite (lookup_seq_ge _ _ _ (proj1 (lookup_ge_None _ _) He)).
Qed.

(** X14.  No request creates, changes or removes a file other than the
    model file and the files of the database engine (the database file and
    its journals, which the inserts write). *)
Theorem serve_leaves_other_files `{Estimator} qs w p :
  p ≠ MODEL_FILE → ¬ database_file p →
  files (snd (serve qs w)) !! p = files w !! p.
Proof. intros Hp _. by apply serve_files. Qed.

Lemma serve_leaves_other_files_witness :
  "favicon.ico" ≠ MODEL_FILE
  ∧ ¬ database_file "favicon.ico"
  ∧ files (snd (@serve majority
                  [GetAddData "m1" Float.f60 Float.f0_01 Float.f40 "OK";
                   GetAddData "m1" Float.f100 Float.f0_1 Float.f25 "FAIL";
                   GetTrainModel; GetFavicon]
                  (with_files {[ "favicon.ico" := [Byte.x00] ]} (fresh_world cycle3))))
      !! "favicon.ico"
    = files (with_files {[ "favicon.ico" := [Byte.x00] ]} (fresh_world cycle3))
        !! "favicon.ico".
Proof.
  assert (¬ database_file "favicon.ico") as Hdb by (vm_compute; discriminate).
  split; [discriminate|]. split; [exact Hdb|].
  apply (@serve_leaves_other_files majority); [discriminate|exact Hdb].
Defined.

(** X15.  Once a model file exists it is never removed: after any further
    requests the file is still there, and [predict] answers "Model not
    trained yet" only if what the file then holds unpickles to an object
    whose truth value is false. *)
Theorem model_file_stays `{Estimator} qs w bs t v p :
  files w !! MODEL_FILE = Some bs →
  ∃ bs',
    files (snd (serve qs w)) !! MODEL_FILE = Some bs'
    ∧ (outcome (predict t v p) (snd (serve qs w))
       = Ok [("error", "Model not trained yet")]
       ↔ pickle_loads bs' = Ok Falsy).
Proof.
  intros Hfile.
  assert (is_Some (files (snd (serve qs w)) !! MODEL_FILE)) as [bs' Hbs']
    by (apply serve_files; by rewrite Hfile).
  exists bs'. split; [done|].
  unfold outcome. rewrite predict_spec, Hbs'.
  destruct (pickle_loads bs') as [[|m|]|e]; simpl; try (split; done).
  destruct (model_predict m [(t, v, p)]); simpl; split; done.
Qed.

Lemma model_file_stays_witness :
  files first_training !! MODEL_FILE = Some [Byte.x80; Byte.x00]
  ∧ ∃ bs',
      files (snd (@serve majority [GetSimulateData "m1" 2; GetTrainModel]
                    first_training)) !! MODEL_FILE = Some bs'
      ∧ (outcome (@predict majority Float.f60 Float.f0_01 Float.f40)
           (snd (@serve majority [GetSimulateData "m1" 2; GetTrainModel]
                   first_training))
         = Ok [("error", "Model not trained yet")]
         ↔ @pickle_loads majority bs' = Ok Falsy).
Proof.
  split; [vm_compute; reflexivity|].
  apply (@model_file_stays majority [GetSimulateData "m1" 2; GetTrainModel]
           first_training [Byte.x80; Byte.x00]).
  vm_compute; reflexivity.
Defined.

(** X16.  Only training can make a model: in a world without a model
    file, after any requests among which there is no [train_model],
    [predict] still answers "Model not trained yet". *)
Theorem no_model_without_training `{Estimator} qs w t v p :
  files w !! MODEL_FILE = None →
  Forall (fun q => q ≠ GetTrainModel) qs →
  outcome (predict t v p) (snd (serve qs w))
  = Ok [("error", "Model not trained yet")].
Proof.
  intros Hnone Hno. unfold outcome. rewrite predict_spec.
  destruct (serve_files qs w) as (Hsame & _). by rewrite (Hsame Hno), Hnone.
Qed.

Lemma no_model_without_training_witness :
  files (fresh_world cycle3) !! MODEL_FILE = None
  ∧ Forall (fun q => q ≠ GetTrainModel)
      [GetSimulateData "m1" 5; GetHome;
       GetPredict Float.f100 Float.f0_1 Float.f25]
  ∧ outcome (@predict majority Float.f100 Float.f0_1 Float.f25)
      (snd (@serve majority
              [GetSimulateData "m1" 5; GetHome;
               GetPredict Float.f100 Float.f0_1 Float.f25]
              (fresh_world cycle3)))
    = Ok [("error", "Model not trained yet")].
Proof.
  assert (Forall (fun q => q ≠ GetTrainModel)
            [GetSimulateData "m1" 5; GetHome;
             GetPredict Float.f100 Float.f0_1 Float.f25]) as Hno
    by (repeat constructor; discriminate).
  split; [reflexivity|]. split; [exact Hno|].
  apply (@no_model_without_training majority _ (fresh_world cycle3)
           Float.f100 Float.f0_1 Float.f25 eq_refl Hno).
Defined.

Lemma handle_counts `{Estimator} q w :
  length (db (snd (handle q w))) = (length (db w) + rows_added q)%nat
  ∧ rand_drawn (snd (handle q w)) = (rand_drawn w + numbers_drawn q)%nat.
Proof.
  destruct q as [| |m t v p s|m count| |t v p]; cbn [handle rows_added numbers_drawn].
  - simpl. lia.
  - rewrite favicon_world. lia.
  - rewrite world_after_reply, add_data_spec. simpl. rewrite length_app. simpl. lia.
  - rewrite world_after_reply. fold (world_after (simulate_data m count) w).
    rewrite simulate_data_world. simpl.
    by rewrite length_app, length_fmap, length_seq.
  - rewrite world_after_reply. fold (world_after train w).
    destruct (train_leaves_records_aux w) as (-> & -> & _). lia.
  - rewrite world_after_reply. fold (world_after (predict t v p) w).
    rewrite predict_changes_nothing_aux. lia.
Qed.

(** X17.  Over any sequence of requests the table grows by one row per
    [add_data] and by [max(count, 0)] rows per [simulate_data], and by
    nothing else; random numbers are drawn three per simulated row and by
    no other request. *)
Theorem serve_counts `{Estimator} qs w :
  length (db (snd (serve qs w)))
  = (length (db w) + sum_list (rows_added <$> qs))%nat
  ∧ rand_drawn (snd (serve qs w))
    = (rand_drawn w + sum_list (numbers_drawn <$> qs))%nat.
Proof.
  revert w. induction qs as [|q qs IH]; intros w.
  - simpl. lia.
  - rewrite serve_cons_world.
    destruct (IH (snd (handle q w))) as [-> ->].
    destruct (handle_counts q w) as [-> ->].
    rewrite !fmap_cons. simpl. lia.
Qed.

(** ** The rows the routes insert, in order *)

Lemma added_keyed q src d : Forall keyed (added q src d).
Proof.
  destruct q as [| |m t v p s|m count| |t v p]; simpl; try constructor.
  - apply new_entry_keyed.
  - constructor.
  - apply Forall_fmap, Forall_true. intros i. apply new_entry_keyed.
Qed.

Lemma inserted_keyed qs src d : Forall keyed (inserted qs src d).
Proof.
  revert d. induction qs as [|q qs IH]; intros d; [constructor|].
  simpl. apply Forall_app. split; [apply added_keyed|apply IH].
Qed.

Lemma length_inserted qs src d :
  length (inserted qs src d) = sum_list (rows_added <$> qs).
Proof.
  revert d. induction qs as [|q qs IH]; intros d; [done|].
  simpl. rewrite length_app, IH. f_equal.
  destruct q; simpl; try done. by rewrite length_fmap, length_seq.
Qed.

Lemma train_keeps_random `{Estimator} w :
  rand_source (world_after train w) = rand_source w
  ∧ rand_drawn (world_after train w) = rand_drawn w.
Proof. by destruct (train_world_cases w) as [->|(bs & k & ->)]. Qed.

(** What one request does to the table and to the random state. *)
Lemma handle_added `{Estimator} q w :
  db (snd (handle q w)) = flush (added q (rand_source w) (rand_drawn w)) (db w)
  ∧ rand_source (snd (handle q w)) = rand_source w
  ∧ rand_drawn (snd (handle q w)) = (rand_drawn w + numbers_drawn q)%nat.
Proof.
  destruct q as [| |m t v p s|m count| |t v p]; cbn [handle added numbers_drawn].
  - simpl. repeat split. lia.
  - rewrite favicon_world. simpl. repeat split. lia.
  - rewrite world_after_reply. simpl. repeat split. lia.
  - rewrite world_after_reply. unfold simulate_data.
    erewrite bind_ok by apply simulate_loop_closed. simpl. by repeat split.
  - rewrite world_after_reply. fold (world_after train w).
    destruct (train_leaves_records_aux w) as (-> & _).
    destruct (train_keeps_random w) as (-> & ->). simpl. repeat split. lia.
  - rewrite world_after_reply. fold (world_after (predict t v p) w).
    rewrite predict_changes_nothing_aux. simpl. repeat split. lia.
Qed.

Lemma serve_inserted `{Estimator} qs w :
  db (snd (serve qs w))
  = flush (inserted qs (rand_source w) (rand_drawn w)) (db w).
Proof.
  revert w. induction qs as [|q qs IH]; intros w; [done|].
  rewrite serve_cons_world, IH.
  destruct (handle_added q w) as (-> & -> & ->).
  simpl. by rewrite flush_app.
Qed.

(** C3.  Starting from the empty table, after any sequence of requests,
    in which [add_data] and [simulate_data] have inserted N records in
    all, reading the table returns exactly N rows, the i-th of them being
    the i-th record inserted, as the table keeps it, with ids that
    increase strictly along the rows. *)
Theorem read_all_after_inserts `{Estimator} src (qs : list request) :
  ∃ rows,
    outcome read_sql (snd (serve qs (fresh_world src))) = Ok rows
    ∧ length rows = sum_list (rows_added <$> qs)
    ∧ rows = imap (fun i e => stored (e (1 + Z.of_nat i))) (inserted qs src 0)
    ∧ ∀ i j ri rj, rows !! i = Some ri → rows !! j = Some rj →
        (i < j)%nat → row_id ri < row_id rj.
Proof.
  pose proof (inserted_keyed qs src 0) as Hkeyed.
  exists (imap (fun i e => stored (e (1 + Z.of_nat i))) (inserted qs src 0)).
  split; [|split; [|split]].
  - unfold outcome. simpl. f_equal. unfold select_all.
    rewrite serve_inserted. simpl. by rewrite flush_spec.
  - by rewrite length_imap, length_inserted.
  - reflexivity.
  - intros i j ri rj Hi Hj Hlt.
    rewrite list_lookup_imap in Hi, Hj.
    apply fmap_Some in Hi as (ei & Hei & ->).
    apply fmap_Some in Hj as (ej & Hej & ->).
    rewrite !row_id_stored.
    rewrite (Forall_lookup_1 _ _ _ _ Hkeyed Hei), (Forall_lookup_1 _ _ _ _ Hkeyed Hej).
    lia.
Qed.
